(** * checksum.py: digest of a local file or of a URL, checked against an
      expected value.

    The development embeds src/checksum.py shallowly.  Python [bytes] are
    lists of [Byte.byte], Python [str] values are Rocq strings (the
    characters the program builds itself are all ASCII), the [int] read
    by argparse is a [Z].  Calls into the operating system and the network
    go through an explicit [World]; every such call is logged in a trace
    so that the order of effects can be stated.  The functions of
    [hashlib] the program can reach are modelled after FIPS 180-4. *)

From Stdlib Require Import ZArith Ascii String List Lia.
From Stdlib.Strings Require Byte.
From stdpp Require Import list gmap strings pretty.
From Equations Require Import Equations.
From Equations.Prop Require Logic.

Local Open Scope Z_scope.

Abbreviation byte := Byte.byte.
Abbreviation bytes := (list Byte.byte).

(** ** Bytes and big-endian words *)

Definition Z_of_byte (b : byte) : Z := Z.of_N (Byte.to_N b).

Definition byte_of_Z (x : Z) : byte :=
  match Byte.of_N (Z.to_N (x mod 256)) with
  | Some b => b
  | None => Byte.x00
  end.

(** [b"..."]: the bytes of an ASCII literal. *)
Definition b_ (s : string) : bytes := list_byte_of_string s.

(** The [n] low bytes of [x], most significant first. *)
Fixpoint be_bytes (n : nat) (x : Z) : bytes :=
  match n with
  | O => []
  | S n' => be_bytes n' (Z.shiftr x 8) ++ [byte_of_Z x]
  end.

Definition be_word (bs : bytes) : Z :=
  fold_left (fun acc b => Z.lor (Z.shiftl acc 8) (Z_of_byte b)) bs 0.

(** [blocks k n l]: the first [k] consecutive slices of [l], [n] items each. *)
Fixpoint blocks {A} (k n : nat) (l : list A) : list (list A) :=
  match k with
  | O => []
  | S k' => take n l :: blocks k' n (drop n l)
  end.

Definition split_blocks {A} (n : nat) (l : list A) : list (list A) :=
  blocks (length l / n)%nat n l.

(** ** hashlib: the SHA-1 and SHA-2 families (FIPS 180-4) *)

Module Hashlib.

Section Word.
(** Word width in bits: 32 for SHA-1, SHA-224 and SHA-256, 64 for
    SHA-384 and SHA-512. *)
Variable w : Z.

Definition wrap (x : Z) : Z := x mod 2 ^ w.
Definition wadd (x y : Z) : Z := wrap (x + y).
Definition wnot (x : Z) : Z := Z.lxor x (Z.ones w).
Definition rotl (n x : Z) : Z :=
  Z.lor (wrap (Z.shiftl x n)) (Z.shiftr x (w - n)).
Definition rotr (n x : Z) : Z :=
  Z.lor (Z.shiftr x n) (wrap (Z.shiftl x (w - n))).

Definition Ch (x y z : Z) : Z := Z.lxor (Z.land x y) (Z.land (wnot x) z).
Definition Parity (x y z : Z) : Z := Z.lxor (Z.lxor x y) z.
Definition Maj (x y z : Z) : Z :=
  Z.lxor (Z.lxor (Z.land x y) (Z.land x z)) (Z.land y z).

(** The message schedule is kept newest word first; [extend n step]
    appends [n] words, each computed from the words before it. *)
Fixpoint extend (n : nat) (step : list Z → Z) (rev_w : list Z) : list Z :=
  match n with
  | O => rev_w
  | S n' => extend n' step (step rev_w :: rev_w)
  end.

(** Padding: a 1 bit, zero bits up to the block boundary, and the
    message length in bits on [len_bytes] bytes. *)
Definition pad (block len_bytes : nat) (msg : bytes) : bytes :=
  let l := length msg in
  let k := ((block - (l + 1 + len_bytes) mod block) mod block)%nat in
  msg ++ [Byte.x80] ++ replicate k Byte.x00
      ++ be_bytes len_bytes (8 * Z.of_nat l).

Definition words_of (block : bytes) : list Z :=
  be_word <$> split_blocks (Z.to_nat (w / 8)) block.
End Word.

(** *** SHA-1 *)

Definition sha1_state : Type := Z * Z * Z * Z * Z.

Definition sha1_init : sha1_state :=
  (0x67452301, 0xefcdab89, 0x98badcfe, 0x10325476, 0xc3d2e1f0).

Definition sha1_f (t : nat) (b c d : Z) : Z :=
  if (t <? 20)%nat then Ch 32 b c d
  else if (t <? 40)%nat then Parity b c d
  else if (t <? 60)%nat then Maj b c d
  else Parity b c d.

Definition sha1_k (t : nat) : Z :=
  if (t <? 20)%nat then 0x5a827999
  else if (t <? 40)%nat then 0x6ed9eba1
  else if (t <? 60)%nat then 0x8f1bbcdc
  else 0xca62c1d6.

Definition sha1_schedule (m : list Z) : list Z :=
  rev (extend 64
         (λ r, rotl 32 1 (Z.lxor (Z.lxor (nth 2 r 0) (nth 7 r 0))
                                 (Z.lxor (nth 13 r 0) (nth 15 r 0))))
         (rev m)).

Definition sha1_round (st : sha1_state) (tw : nat * Z) : sha1_state :=
  let '(a, b, c, d, e) := st in
  let '(t, wt) := tw in
  (wrap 32 (rotl 32 5 a + sha1_f t b c d + e + sha1_k t + wt),
   a, rotl 32 30 b, c, d).

Definition sha1_compress (h : sha1_state) (block : bytes) : sha1_state :=
  let ws := sha1_schedule (words_of 32 block) in
  let '(h0, h1, h2, h3, h4) := h in
  let '(a, b, c, d, e) := fold_left sha1_round (imap pair ws) h in
  (wadd 32 h0 a, wadd 32 h1 b, wadd 32 h2 c, wadd 32 h3 d, wadd 32 h4 e).

Definition sha1_digest (msg : bytes) : bytes :=
  let '(h0, h1, h2, h3, h4) :=
    fold_left sha1_compress (split_blocks 64 (pad 64 8 msg)) sha1_init in
  be_bytes 4 h0 ++ be_bytes 4 h1 ++ be_bytes 4 h2 ++ be_bytes 4 h3
    ++ be_bytes 4 h4.

(** *** SHA-2: one compression function for both word widths *)

Definition sha2_state : Type := Z * Z * Z * Z * Z * Z * Z * Z.

Record sha2_params := {
  p_w : Z;                      (* word width *)
  p_block : nat;                (* block size in bytes *)
  p_len : nat;                  (* bytes of the length field *)
  p_K : list Z;                 (* round constants, one per round *)
  p_S0 : Z * Z * Z;             (* rotations of the big sigma 0 *)
  p_S1 : Z * Z * Z;             (* rotations of the big sigma 1 *)
  p_s0 : Z * Z * Z;             (* small sigma 0: two rotations, one shift *)
  p_s1 : Z * Z * Z              (* small sigma 1: two rotations, one shift *)
}.

Section Sha2.
Variable P : sha2_params.
Let w := p_w P.

Definition Sigma (r : Z * Z * Z) (x : Z) : Z :=
  let '(r1, r2, r3) := r in
  Z.lxor (Z.lxor (rotr w r1 x) (rotr w r2 x)) (rotr w r3 x).

Definition sigma (r : Z * Z * Z) (x : Z) : Z :=
  let '(r1, r2, s3) := r in
  Z.lxor (Z.lxor (rotr w r1 x) (rotr w r2 x)) (Z.shiftr x s3).

Definition sha2_schedule (m : list Z) : list Z :=
  rev (extend (length (p_K P) - 16)
         (λ r, wrap w (sigma (p_s1 P) (nth 1 r 0) + nth 6 r 0
                       + sigma (p_s0 P) (nth 14 r 0) + nth 15 r 0))
         (rev m)).

Definition sha2_round (st : sha2_state) (kw : Z * Z) : sha2_state :=
  let '(a, b, c, d, e, f, g, h) := st in
  let '(kt, wt) := kw in
  let T1 := wrap w (h + Sigma (p_S1 P) e + Ch w e f g + kt + wt) in
  let T2 := wrap w (Sigma (p_S0 P) a + Maj a b c) in
  (wadd w T1 T2, a, b, c, wadd w d T1, e, f, g).

Definition sha2_compress (H : sha2_state) (block : bytes) : sha2_state :=
  let ws := sha2_schedule (words_of w block) in
  let '(h0, h1, h2, h3, h4, h5, h6, h7) := H in
  let '(a, b, c, d, e, f, g, h) :=
    fold_left sha2_round (zip (p_K P) ws) H in
  (wadd w h0 a, wadd w h1 b, wadd w h2 c, wadd w h3 d,
   wadd w h4 e, wadd w h5 f, wadd w h6 g, wadd w h7 h).

Definition sha2_final (init : sha2_state) (msg : bytes) : sha2_state :=
  fold_left sha2_compress
    (split_blocks (p_block P) (pad (p_block P) (p_len P) msg)) init.
End Sha2.

(** The round constants and the initial hash values are the leading bits
    of the fractional parts of the cube roots and of the square roots of
    the first primes (FIPS 180-4, sections 4.2.2, 4.2.3 and 5.3). *)

Definition is_prime (n : Z) : bool :=
  forallb (λ d, negb (n mod d =? 0)) (seqZ 2 (n - 2)).

Definition primes (k : nat) : list Z :=
  take k (List.filter is_prime (seqZ 2 500)).

(** The largest [r'] above [r] with [r' ^ e ≤ n], settled bit by bit from
    bit [bits - 1] down. *)
Fixpoint iroot (e : Z) (bits : nat) (n r : Z) : Z :=
  match bits with
  | O => r
  | S b =>
      let r' := r + 2 ^ Z.of_nat b in
      iroot e b n (if r' ^ e <=? n then r' else r)
  end.

(** The first [w] bits of the fractional part of the [e]-th root of [p]. *)
Definition frac_root (e w p : Z) : Z :=
  iroot e (Z.to_nat (w + 8)) (p * 2 ^ (e * w)) 0 mod 2 ^ w.

Definition K256 : list Z := Eval vm_compute in frac_root 3 32 <$> primes 64.

Definition K512 : list Z := Eval vm_compute in frac_root 3 64 <$> primes 80.

Definition state_of_list (l : list Z) : sha2_state :=
  match l with
  | [a; b; c; d; e; f; g; h] => (a, b, c, d, e, f, g, h)
  | _ => (0, 0, 0, 0, 0, 0, 0, 0)
  end.

Definition P256 : sha2_params :=
  {| p_w := 32; p_block := 64; p_len := 8; p_K := K256;
     p_S0 := (2, 13, 22); p_S1 := (6, 11, 25);
     p_s0 := (7, 18, 3); p_s1 := (17, 19, 10) |}.

Definition P512 : sha2_params :=
  {| p_w := 64; p_block := 128; p_len := 16; p_K := K512;
     p_S0 := (28, 34, 39); p_S1 := (14, 18, 41);
     p_s0 := (1, 8, 7); p_s1 := (19, 61, 6) |}.

Definition sha256_init : sha2_state :=
  Eval vm_compute in state_of_list (frac_root 2 32 <$> primes 8).

Definition sha512_init : sha2_state :=
  Eval vm_compute in state_of_list (frac_root 2 64 <$> primes 8).

(** SHA-384 starts from the ninth to sixteenth primes, SHA-224 from the
    low halves of the same words. *)
Definition sha384_init : sha2_state :=
  Eval vm_compute in state_of_list (frac_root 2 64 <$> drop 8 (primes 16)).

Definition sha224_init : sha2_state :=
  Eval vm_compute in
    state_of_list ((λ x, x mod 2 ^ 32) ∘ frac_root 2 64 <$> drop 8 (primes 16)).

(** The digest is the first [n] state words, each on [wb] bytes. *)
Definition state_bytes (wb n : nat) (H : sha2_state) : bytes :=
  let '(h0, h1, h2, h3, h4, h5, h6, h7) := H in
  mjoin (be_bytes wb <$> take n [h0; h1; h2; h3; h4; h5; h6; h7]).

Definition sha224_digest (msg : bytes) : bytes :=
  state_bytes 4 7 (sha2_final P256 sha224_init msg).
Definition sha256_digest (msg : bytes) : bytes :=
  state_bytes 4 8 (sha2_final P256 sha256_init msg).
Definition sha384_digest (msg : bytes) : bytes :=
  state_bytes 8 6 (sha2_final P512 sha384_init msg).
Definition sha512_digest (msg : bytes) : bytes :=
  state_bytes 8 8 (sha2_final P512 sha512_init msg).

End Hashlib.

(** ** Strings: hexadecimal rendering, [repr], [startswith] *)

Definition hex_digit (n : Z) : ascii :=
  nth (Z.to_nat n) (list_ascii_of_string "0123456789abcdef") "0"%char.

Definition hex2 (n : Z) (rest : string) : string :=
  String (hex_digit (n / 16)) (String (hex_digit (n mod 16)) rest).

(** [bytes.hex()]: two lowercase hexadecimal digits per byte. *)
Fixpoint hexlify (bs : bytes) : string :=
  match bs with
  | [] => EmptyString
  | b :: bs' => hex2 (Z_of_byte b) (hexlify bs')
  end.

Definition squote : ascii := "'"%char.
Definition dquote : ascii := ascii_of_nat 34.
Definition backslash : ascii := "\"%char.

Fixpoint contains (c : ascii) (s : string) : bool :=
  match s with
  | EmptyString => false
  | String a s' => bool_decide (a = c) || contains c s'
  end.

(** [repr] of one character of a [str] delimited by [quote]; a character
    of the embedding is the code point of the same number (below 256). *)
Definition repr_char (quote c : ascii) : string :=
  let n := Z.of_nat (nat_of_ascii c) in
  if bool_decide (c = quote) || bool_decide (c = backslash)
  then String backslash (String c "")
  else if n =? 9 then String backslash "t"
  else if n =? 10 then String backslash "n"
  else if n =? 13 then String backslash "r"
  else if (n <? 32) || (n =? 127) then String backslash (String "x" (hex2 n ""))
  else if n <? 127 then String c ""
  else if (n <=? 160) || (n =? 173) then String backslash (String "x" (hex2 n ""))
  else String c "".

Fixpoint repr_body (quote : ascii) (s : string) : string :=
  match s with
  | EmptyString => EmptyString
  | String c s' => repr_char quote c +:+ repr_body quote s'
  end.

(** [repr(s)], what [{s!r}] puts in an f-string: single quotes, unless
    the text holds a single quote and no double quote. *)
Definition py_repr (s : string) : string :=
  let quote := if contains squote s && negb (contains dquote s)
               then dquote else squote in
  String quote (repr_body quote s +:+ String quote "").

(** [s.startswith(p)] *)
Definition startswith (s p : string) : bool := String.prefix p s.

(** [str(v)] for an [int], as an f-string formats it: decimal digits,
    with a minus sign for a negative number. *)
Definition py_str (v : Z) : string := pretty v.

(** ** Exceptions, results, effects *)

Inductive exn : Type :=
| AttributeError (msg : string)
| FileNotFoundError (msg : string)
| IsADirectoryError (msg : string)
| PermissionError (msg : string)
| ValueError (msg : string)
| SSLError (msg : string)
| URLError (msg : string).

Inductive result (A : Type) : Type :=
| Ok (a : A)
| Raise (e : exn).
Arguments Ok {A} a.
Arguments Raise {A} e.

(** [urllib.request.Request]: the URL and the header dictionary. *)
Record Request := { full_url : string; headers : gmap string string }.

(** [ssl.SSLContext]: the trust-anchor file it was loaded from. *)
Record SSLContext := { ctx_cafile : option string }.

(** What a path names. *)
Inductive node : Type :=
| File (content : bytes)
| Locked                        (* a file the process may not read *)
| Dir.

(** Everything outside the program: the file system, the checks of the
    [Request] constructor, OpenSSL's loading of a certificate bundle, and
    the outcome of the HTTP exchange for a request. *)
Record World := {
  fs : gmap string node;
  request_error : string → option exn;
  load_verify_error : string → option exn;
  http_response : Request → SSLContext → result bytes
}.

(** One entry per call that reaches the world, in program order. *)
Inductive event : Type :=
| EvExists (path : string)                       (* os.path.exists *)
| EvOpen (path : string)                         (* open(path, 'rb') *)
| EvLoadCerts (cafile : option string)           (* ssl.create_default_context *)
| EvUrlopen (req : Request) (ctx : SSLContext)   (* urllib.request.urlopen *)
| EvPrint (line : string).                       (* print *)

Definition M (A : Type) : Type := list event → result A * list event.

Global Instance M_ret : MRet M := λ A a tr, (Ok a, tr).
Global Instance M_bind : MBind M := λ A B f m tr,
  match m tr with
  | (Ok a, tr') => f a tr'
  | (Raise e, tr') => (Raise e, tr')
  end.

Definition raise {A} (e : exn) : M A := λ tr, (Raise e, tr).
Definition emit (e : event) : M () := λ tr, (Ok (), tr ++ [e]).
Definition lift {A} (r : result A) : M A := λ tr, (r, tr).

(** Text written to standard output: [print] ends each line. *)
Fixpoint stdout (tr : list event) : string :=
  match tr with
  | [] => EmptyString
  | EvPrint line :: tr' => line +:+ String (ascii_of_nat 10) (stdout tr')
  | _ :: tr' => stdout tr'
  end.

Definition is_network_call (e : event) : bool :=
  match e with EvUrlopen _ _ => true | _ => false end.

(** ** File objects *)

(** A binary file object over a fixed content: [read(size)] returns the
    next [size] bytes, fewer at the end, everything left when [size] is
    negative, and advances the position. *)
Record Readable := { raw : bytes; pos : nat }.

Definition remaining (fp : Readable) : nat := (length (raw fp) - pos fp)%nat.

Definition read (fp : Readable) (size : Z) : bytes * Readable :=
  let rest := drop (pos fp) (raw fp) in
  let chunk := if size <? 0 then rest else take (Z.to_nat size) rest in
  (chunk, {| raw := raw fp; pos := (pos fp + length chunk)%nat |}).

(** ** The program *)

Definition KIBIBYTE : Z := 1024.
Definition MEBIBYTE : Z := 1024 * KIBIBYTE.

Definition DEFAULT_CAFILE_PATHS : list string :=
  [ "/etc/ssl/certs/cacert.pem";
    "/etc/ssl/cert.pem" ]%string.

Definition DEFAULT_USER_AGENT : string :=
  ("Mozilla/5.0 (Macintosh; Intel Mac OS X 10_15_7) AppleWebKit/537.36 "
   +:+ "(KHTML, like Gecko) Chrome/85.0.4183.121 Safari/537.36")%string.

(** The constructors of [hashlib] that a name of the form sha<int> can
    reach. *)
Inductive hash_function : Type := sha1 | sha224 | sha256 | sha384 | sha512.

Definition digest (f : hash_function) (b : bytes) : bytes :=
  match f with
  | sha1 => Hashlib.sha1_digest b
  | sha224 => Hashlib.sha224_digest b
  | sha256 => Hashlib.sha256_digest b
  | sha384 => Hashlib.sha384_digest b
  | sha512 => Hashlib.sha512_digest b
  end.

(** [f(b).hexdigest()] *)
Definition hexdigest (f : hash_function) (b : bytes) : string :=
  hexlify (digest f b).

Definition hashlib : gmap string hash_function :=
  <["sha1" := sha1]> (<["sha224" := sha224]> (<["sha256" := sha256]>
  (<["sha384" := sha384]> (<["sha512" := sha512]> ∅))))%string.

(** The other attributes of the module; none is spelled sha<int>
    (lemma [fstring_not_other_attr]), so [getattr] never meets them. *)
Definition hashlib_other_attrs : list string :=
  [ "sha3_224"; "sha3_256"; "sha3_384"; "sha3_512"; "shake_128";
    "shake_256"; "md5"; "blake2b"; "blake2s"; "new"; "pbkdf2_hmac";
    "scrypt"; "file_digest"; "algorithms_available";
    "algorithms_guaranteed" ]%string.

(** [getattr(hashlib, name)] *)
Definition getattr_hashlib (name : string) : result hash_function :=
  match hashlib !! name with
  | Some f => Ok f
  | None =>
      Raise (AttributeError
               ("module 'hashlib' has no attribute '" +:+ name +:+ "'"))
  end.

Definition get_alogirthm_function (algorithm_version : Z)
  : result hash_function :=
  getattr_hashlib ("sha" +:+ py_str algorithm_version).

Definition get_hashsum (algorithm_version : Z) (b : bytes) : result string :=
  match get_alogirthm_function algorithm_version with
  | Ok f => Ok (hexdigest f b)
  | Raise e => Raise e
  end.

Definition create_ssl_context (W : World) (cafile : option string)
  : M SSLContext :=
  emit (EvLoadCerts cafile);;
  match cafile ≫= load_verify_error W with
  | Some e => raise e
  | None => mret {| ctx_cafile := cafile |}
  end.

Definition get_headers (user_agent : string) : gmap string string :=
  {[ "User-Agent"%string := user_agent ]}.

Definition build_request (W : World) (url : string)
    (headers : gmap string string) : M Request :=
  match request_error W url with
  | Some e => raise e
  | None => mret {| full_url := url; headers := headers |}
  end.

(** The loop of [read_bytes]: [b] is what has been accumulated so far. *)
Equations? read_loop (readable : Readable) (chunk_size : Z) (b : bytes)
  : bytes by wf (remaining readable) lt :=
  read_loop readable chunk_size b with Logic.inspect (read readable chunk_size) := {
    | @exist (new_bytes, readable') Hread with new_bytes := {
      | [] := b
      | _ :: _ := read_loop readable' chunk_size (b ++ new_bytes) } }.
Proof.
  (* a non-empty chunk was read, and it is no longer than what was left *)
  match goal with H : ?chunk = _ :: _ |- _ =>
    assert (length chunk ≤ length (drop (pos readable) (raw readable)))%nat
      as Hle by (destruct (chunk_size <? 0); rewrite ?length_take; lia);
    rewrite H in Hle |- *
  end.
  rewrite length_drop in Hle. unfold remaining; simpl in *. lia.
Qed.

Definition read_bytes (readable : Readable) (chunk_size : Z) : bytes :=
  read_loop readable chunk_size [].

(** [open(path, 'rb')] *)
Definition open_rb (W : World) (path : string) : M Readable :=
  emit (EvOpen path);;
  match fs W !! path with
  | Some (File content) => mret {| raw := content; pos := 0 |}
  | Some Locked =>
      raise (PermissionError ("[Errno 13] Permission denied: " +:+ py_repr path))
  | Some Dir =>
      raise (IsADirectoryError ("[Errno 21] Is a directory: " +:+ py_repr path))
  | None =>
      raise (FileNotFoundError
               ("[Errno 2] No such file or directory: " +:+ py_repr path))
  end.

Definition read_file (W : World) (path : string) : M bytes :=
  fp ← open_rb W path;
  mret (read_bytes fp MEBIBYTE).

(** [urllib.request.urlopen(request, context=ssl_context)]: the response
    body as a file object, or the exception of a failed exchange. *)
Definition urlopen (W : World) (request : Request) (ssl_context : SSLContext)
  : M Readable :=
  emit (EvUrlopen request ssl_context);;
  match http_response W request ssl_context with
  | Ok body => mret {| raw := body; pos := 0 |}
  | Raise e => raise e
  end.

Definition read_request (W : World) (request : Request)
    (ssl_context : SSLContext) : M bytes :=
  fp ← urlopen W request ssl_context;
  mret (read_bytes fp (4 * KIBIBYTE)).

(** [os.path.exists(path)] *)
Definition path_exists (W : World) (path : string) : M bool :=
  emit (EvExists path);;
  mret (bool_decide (is_Some (fs W !! path))).

(** The [for] loop of [get_default_cafile] over the paths still to try. *)
Fixpoint first_existing (W : World) (paths : list string) : M string :=
  match paths with
  | [] => raise (FileNotFoundError "Cannot find any cafile")
  | cafile_path :: rest =>
      found ← path_exists W cafile_path;
      if found : bool then mret cafile_path else first_existing W rest
  end.

Definition get_default_cafile (W : World) : M string :=
  first_existing W DEFAULT_CAFILE_PATHS.

(** The parsed command line ([argparse.Namespace]). *)
Record Namespace := {
  target : string;
  algorithm_version : Z;
  user_agent : string;
  cafile : option string;
  hashsum : option string
}.

(** Truth value of an [Optional[str]]: [None] and the empty string are
    false. *)
Definition truthy (o : option string) : bool :=
  match o with
  | None => false
  | Some s => negb (bool_decide (s = EmptyString))
  end.

(** Lines 104-112 of [main]: the branch taken for a URL. *)
Definition fetch_url (W : World) (args : Namespace) : M bytes :=
  let headers := get_headers (user_agent args) in
  request ← build_request W (target args) headers;
  cafile ← (if negb (truthy (cafile args))
            then get_default_cafile W
            else mret (default EmptyString (cafile args)));
  ssl_context ← create_ssl_context W (Some cafile);
  read_request W request ssl_context.

(** Lines 103-115 of [main]: the bytes of the target. *)
Definition fetch (W : World) (args : Namespace) : M bytes :=
  if startswith (target args) "http"
  then fetch_url W args
  else read_file W (target args).

(** Lines 119-131 of [main]: print the outcome, return the exit code. *)
Definition report (target_hashsum : string) (hashsum : option string) : M Z :=
  match hashsum with
  | None =>
      emit (EvPrint ("Target hassum is " +:+ py_repr target_hashsum));;
      mret 0
  | Some expected =>
      if bool_decide (target_hashsum = expected)
      then emit (EvPrint "True");; mret 0
      else emit (EvPrint "False");; mret 1
  end.

Definition main (W : World) (args : Namespace) : M Z :=
  b ← fetch W args;
  target_hashsum ← lift (get_hashsum (algorithm_version args) b);
  report target_hashsum (hashsum args).

(** [sys.exit(main())]: the status of the process; an exception that
    nothing catches ends it with status 1. *)
Definition exit_status (r : result Z) : Z :=
  match r with
  | Ok code => code
  | Raise _ => 1
  end.

(** The command line [-T target] with the defaults of the parser. *)
Definition parse_defaults (tgt : string) : Namespace :=
  {| target := tgt; algorithm_version := 1;
     user_agent := DEFAULT_USER_AGENT; cafile := None; hashsum := None |}.

(** * Vocabulary of the statements *)

(** [only P m]: whatever the trace before, [m] extends it, and only by
    events that satisfy [P]. *)
Definition only {A} (P : event → Prop) (m : M A) : Prop :=
  ∀ tr, ∃ evs, (m tr).2 = tr ++ evs ∧ Forall P evs.

Definition is_open (e : event) : Prop :=
  match e with EvOpen _ => True | _ => False end.

Definition is_url_event (e : event) : Prop :=
  match e with
  | EvExists _ | EvLoadCerts _ | EvUrlopen _ _ => True
  | EvOpen _ | EvPrint _ => False
  end.

Definition missing (W : World) (path : string) : Prop := fs W !! path = None.

(** The request [main] builds for its target. *)
Definition request_of (args : Namespace) : Request :=
  {| full_url := target args; headers := get_headers (user_agent args) |}.

Definition set_cafile (c : option string) (args : Namespace) : Namespace :=
  {| target := target args; algorithm_version := algorithm_version args;
     user_agent := user_agent args; cafile := c; hashsum := hashsum args |}.

Definition cafile_not_found : exn := FileNotFoundError "Cannot find any cafile".

Fixpoint string_forall (p : ascii → bool) (s : string) : bool :=
  match s with
  | EmptyString => true
  | String c s' => p c && string_forall p s'
  end.

Definition lower_hex_digit (c : ascii) : bool :=
  existsb (λ d, bool_decide (c = d))
    (list_ascii_of_string "0123456789abcdef").

(** A lowercase hexadecimal string. *)
Definition lower_hex (s : string) : bool := string_forall lower_hex_digit s.

(** Characters per digest: twice the digest size in bytes. *)
Definition hex_length (f : hash_function) : nat :=
  match f with
  | sha1 => 40
  | sha224 => 56
  | sha256 => 64
  | sha384 => 96
  | sha512 => 128
  end.

(** The identifiers of the SHA-1 and SHA-2 digest sizes. *)
Definition supported_versions : list Z := [1; 224; 256; 384; 512].

Definition digit_or_dash (c : ascii) : bool :=
  existsb (λ d, bool_decide (c = d)) (list_ascii_of_string "0123456789-").

(** ** Two hosts for concrete runs *)

(** A host with one of the two default certificate bundles, a text file
    and an empty file; every URL answers with the body [b"abc"]. *)
Definition host_with_bundle : World :=
  {| fs := {[ "/etc/ssl/cert.pem"%string := File (b_ "-----BEGIN CERTIFICATE-----");
              "abc.txt"%string := File (b_ "abc");
              "empty.bin"%string := File [] ]};
     request_error := λ _, None;
     load_verify_error := λ _, None;
     http_response := λ _ _, Ok (b_ "abc") |}.

(** A host with no certificate bundle at the default paths. *)
Definition bare_host : World :=
  {| fs := {[ "abc.txt"%string := File (b_ "abc") ]};
     request_error := λ _, None;
     load_verify_error := λ _, None;
     http_response := λ _ _, Ok (b_ "abc") |}.

Definition with_hashsum (h : string) (args : Namespace) : Namespace :=
  {| target := target args; algorithm_version := algorithm_version args;
     user_agent := user_agent args; cafile := cafile args;
     hashsum := Some h |}.

Definition abc_sha1 : string := "a9993e364706816aba3e25717850c26c9cd0d89d".

(** ** Vocabulary of the further properties *)

Definition is_print (e : event) : Prop :=
  match e with EvPrint _ => True | _ => False end.

Definition is_exists (e : event) : Prop :=
  match e with EvExists _ => True | _ => False end.



(** The same command line with other values of [-U] and [-C]. *)
Definition set_url_options (ua : string) (c : option string)
    (args : Namespace) : Namespace :=
  {| target := target args; algorithm_version := algorithm_version args;
     user_agent := ua; cafile := c; hashsum := hashsum args |}.

(** A host whose certificate bundles OpenSSL refuses. *)
Definition host_bad_bundle : World :=
  {| fs := {[ "my.pem"%string := File (b_ "not a certificate") ]};
     request_error := λ _, None;
     load_verify_error := λ _, Some (SSLError "[X509] no certificate or crl found");
     http_response := λ _ _, Ok (b_ "abc") |}.

(** A host where [Request] refuses a URL without a colon. *)
Definition strict_host : World :=
  {| fs := {[ "httpd.conf"%string := File (b_ "abc") ]};
     request_error := λ url,
       if contains ":"%char url then None
       else Some (ValueError ("unknown url type: " +:+ py_repr url));
     load_verify_error := λ _, None;
     http_response := λ _ _, Ok (b_ "abc") |}.

(** * Properties *)

(** ** The monad *)

Lemma bind_ok {A B} (m : M A) (f : A → M B) tr a tr' :
  m tr = (Ok a, tr') → (m ≫= f) tr = f a tr'.
Proof. intros H. unfold mbind, M_bind. by rewrite H. Qed.

Lemma bind_raise {A B} (m : M A) (f : A → M B) tr e tr' :
  m tr = (Raise e, tr') → (m ≫= f) tr = (Raise e, tr').
Proof. intros H. unfold mbind, M_bind. by rewrite H. Qed.

(** ** Reading a file object to its end *)

Lemma read_remaining fp size :
  remaining (read fp size).2 = (remaining fp - length (read fp size).1)%nat.
Proof. unfold remaining, read. simpl. lia. Qed.

Lemma read_length_le fp size : (length (read fp size).1 ≤ remaining fp)%nat.
Proof.
  unfold remaining, read. simpl.
  destruct (size <? 0); rewrite ?length_take, length_drop; lia.
Qed.

Lemma read_loop_step fp cs b :
  read_loop fp cs b =
  match (read fp cs).1 with
  | [] => b
  | _ :: _ => read_loop (read fp cs).2 cs (b ++ (read fp cs).1)
  end.
Proof.
  funelim (read_loop fp cs b); unfold read; simpl;
    match goal with H : (if _ then _ else _) = _ |- _ => rewrite H end;
    reflexivity.
Qed.

(** What one [read] returns and what it leaves make up what was left. *)
Lemma read_split fp cs :
  (read fp cs).1 ++ drop (pos (read fp cs).2) (raw (read fp cs).2)
  = drop (pos fp) (raw fp).
Proof.
  unfold read; simpl. rewrite <- drop_drop.
  generalize (drop (pos fp) (raw fp)) as rest. intros rest.
  destruct (cs <? 0).
  - by rewrite drop_all, app_nil_r.
  - rewrite length_take.
    destruct (Nat.le_ge_cases (Z.to_nat cs) (length rest)) as [Hle|Hge].
    + rewrite Nat.min_l by done. apply take_drop.
    + rewrite Nat.min_r by done.
      by rewrite take_ge, drop_all, app_nil_r.
Qed.

(** A [read] of a non-zero size is empty only at the end of the file. *)
Lemma read_nil fp cs :
  cs ≠ 0 → (read fp cs).1 = [] → drop (pos fp) (raw fp) = [].
Proof.
  unfold read; simpl. intros Hcs. destruct (cs <? 0) eqn:E; [done|].
  apply Z.ltb_ge in E.
  destruct (Z.to_nat cs) eqn:En; [lia|].
  by destruct (drop (pos fp) (raw fp)).
Qed.

Lemma read_loop_spec fp cs b :
  cs ≠ 0 → read_loop fp cs b = b ++ drop (pos fp) (raw fp).
Proof.
  intros Hcs. remember (remaining fp) as n eqn:Hn.
  revert fp b Hn. induction (lt_wf n) as [n _ IH]. intros fp b ->.
  rewrite read_loop_step.
  destruct (read fp cs).1 as [|c chunk] eqn:Hchunk.
  - by rewrite (read_nil fp cs), app_nil_r.
  - rewrite (IH (remaining (read fp cs).2)); [| |done].
    + by rewrite <- (read_split fp cs), Hchunk, <- app_assoc.
    + rewrite read_remaining, Hchunk.
      pose proof (read_length_le fp cs) as Hle. rewrite Hchunk in Hle.
      simpl in *. lia.
Qed.

(** With a chunk size of zero the first [read] is empty and the loop
    stops at once. *)
Lemma read_loop_zero fp b : read_loop fp 0 b = b.
Proof. rewrite read_loop_step. unfold read; simpl. reflexivity. Qed.

Lemma read_bytes_all content cs :
  cs ≠ 0 → read_bytes {| raw := content; pos := 0 |} cs = content.
Proof. intros Hcs. unfold read_bytes. by rewrite read_loop_spec. Qed.

(** C4. Reading a local file whose content is [C] returns exactly [C]:
    the chunks that the loop of [read_bytes] reads, 1 MiB at a time, add
    up to the whole content, for every length of [C], zero included. The
    only effect is the [open] of the path; a target that does not start
    with [http] is fetched this way. *)
Theorem read_file_roundtrip (W : World) (path : string) (C : bytes)
    (tr : list event) :
  fs W !! path = Some (File C) →
  read_file W path tr = (Ok C, tr ++ [EvOpen path])
  ∧ (∀ args, target args = path → startswith path "http" = false →
       fetch W args tr = (Ok C, tr ++ [EvOpen path])).
Proof.
  intros Hfile.
  assert (read_file W path tr = (Ok C, tr ++ [EvOpen path])) as Hread.
  { unfold read_file, open_rb.
    cbv [mbind M_bind mret M_ret emit raise]. rewrite Hfile.
    by rewrite read_bytes_all. }
  split; [done|].
  intros args Ht Hpre. unfold fetch. by rewrite Ht, Hpre.
Qed.

(** ** Which events a computation can add to the trace *)

Lemma only_ret {A} P (a : A) : only P (mret a).
Proof. intros tr. exists []. by rewrite app_nil_r. Qed.

Lemma only_raise {A} P e : only P (raise (A:=A) e).
Proof. intros tr. exists []. by rewrite app_nil_r. Qed.

Lemma only_lift {A} P (r : result A) : only P (lift r).
Proof. intros tr. exists []. by rewrite app_nil_r. Qed.

Lemma only_emit (P : event → Prop) e : P e → only P (emit e).
Proof. intros He tr. exists [e]. split; [done|]. by constructor. Qed.

Lemma only_bind {A B} P (m : M A) (f : A → M B) :
  only P m → (∀ a, only P (f a)) → only P (m ≫= f).
Proof.
  intros Hm Hf tr. destruct (Hm tr) as (evs & Htr & Hevs).
  unfold mbind, M_bind. destruct (m tr) as [[a|e] tr1]; simpl in Htr; subst tr1.
  - destruct (Hf a (tr ++ evs)) as (evs' & Htr' & Hevs').
    exists (evs ++ evs'). rewrite Htr', app_assoc. split; [done|].
    by apply Forall_app.
  - by exists evs.
Qed.

Create HintDb only.
#[local] Hint Resolve only_ret only_raise only_lift only_emit only_bind : only.

Lemma only_first_existing W P paths :
  (∀ p, P (EvExists p)) → only P (first_existing W paths).
Proof.
  intros HP. induction paths as [|p paths IH]; simpl.
  - apply only_raise.
  - apply only_bind.
    + unfold path_exists. apply only_bind; auto with only.
    + intros []; auto with only.
Qed.

Lemma only_fetch_url W args : only is_url_event (fetch_url W args).
Proof.
  unfold fetch_url, build_request, create_ssl_context, read_request, urlopen.
  apply only_bind; [destruct (request_error _ _); auto with only|]. intros req.
  apply only_bind.
  { destruct (negb _); [|auto with only].
    by apply only_first_existing. }
  intros p. apply only_bind.
  { apply only_bind; [by apply only_emit|]. intros _.
    destruct (_ ≫= _); auto with only. }
  intros ctx. apply only_bind; [|auto with only].
  apply only_bind; [by apply only_emit|]. intros _.
  destruct (http_response _ _ _); auto with only.
Qed.

Lemma only_read_file W path : only is_open (read_file W path).
Proof.
  unfold read_file, open_rb.
  apply only_bind; [|auto with only].
  apply only_bind; [by apply only_emit|]. intros _.
  destruct (fs W !! path) as [[]|]; auto with only.
Qed.

(** ** The search for a default trust-anchor file *)

Lemma first_existing_found W l1 p l2 tr :
  Forall (missing W) l1 → is_Some (fs W !! p) →
  first_existing W (l1 ++ p :: l2) tr
  = (Ok p, tr ++ (EvExists <$> l1 ++ [p])).
Proof.
  intros Hl1 Hp. revert tr.
  induction Hl1 as [|q l1 Hq _ IH]; intros tr; simpl.
  - cbv [mbind M_bind path_exists emit mret M_ret].
    by rewrite bool_decide_true.
  - cbv [mbind M_bind path_exists emit mret M_ret].
    rewrite bool_decide_false by (rewrite Hq; by intros [? ?]).
    rewrite IH. by rewrite <- app_assoc.
Qed.

Lemma first_existing_none W l tr :
  Forall (missing W) l →
  first_existing W l tr
  = (Raise (FileNotFoundError "Cannot find any cafile"),
     tr ++ (EvExists <$> l)).
Proof.
  intros Hl. revert tr. induction Hl as [|q l Hq _ IH]; intros tr; simpl.
  - unfold raise. by rewrite app_nil_r.
  - cbv [mbind M_bind path_exists emit mret M_ret].
    rewrite bool_decide_false by (rewrite Hq; by intros [? ?]).
    rewrite IH. by rewrite <- app_assoc.
Qed.

(** The search is the first effect of a URL fetch that has no usable
    [cafile] argument. *)
Lemma first_existing_starts W p paths tr :
  ∃ evs, (first_existing W (p :: paths) tr).2 = tr ++ EvExists p :: evs.
Proof.
  simpl. cbv [mbind M_bind path_exists emit mret M_ret].
  destruct (bool_decide _).
  - by exists [].
  - destruct (only_first_existing W (λ _, True) paths (λ _, I) (tr ++ [EvExists p]))
      as (evs & -> & _).
    exists evs. by rewrite <- app_assoc.
Qed.

(** ** Target classification *)

Lemma prefix_trans p q s :
  String.prefix p q = true → String.prefix q s = true →
  String.prefix p s = true.
Proof.
  revert p q. induction s as [|c s IH]; intros [|a p] [|b q]; simpl; try done.
  destruct (ascii_dec a b) as [->|]; [|done].
  destruct (ascii_dec b c) as [->|]; [|done].
  apply IH.
Qed.

Lemma startswith_trans s p q :
  startswith q p = true → startswith s q = true → startswith s p = true.
Proof. apply prefix_trans. Qed.

(** C5. The target is classified by its prefix alone: a string that
    begins with [http] is handled by the URL branch, which never opens a
    local file; any other string is read as a local path and the only
    effect is the [open] of that path, so no certificate lookup and no
    network call happens.  Each invocation runs one branch and not the
    other. *)
Theorem fetch_classifies_by_prefix (W : World) (args : Namespace)
    (tr : list event) :
  (startswith (target args) "http" = true →
     fetch W args tr = fetch_url W args tr
     ∧ ∃ evs, (fetch W args tr).2 = tr ++ evs
              ∧ Forall is_url_event evs ∧ Forall (λ e, ¬ is_open e) evs)
  ∧ (startswith (target args) "http" = false →
     fetch W args tr = read_file W (target args) tr
     ∧ (fetch W args tr).2 = tr ++ [EvOpen (target args)]
     ∧ Forall (λ e, ¬ is_url_event e) [EvOpen (target args)]).
Proof.
  unfold fetch. split; intros ->.
  - split; [done|].
    destruct (only_fetch_url W args tr) as (evs & Htr & Hevs).
    exists evs. split_and!; [done..|].
    eapply Forall_impl; [exact Hevs|]. intros []; simpl; tauto.
  - split_and!; [done| |by constructor; [intros []|constructor]].
    unfold read_file, open_rb. cbv [mbind M_bind emit mret M_ret raise].
    by destruct (fs W !! target args) as [[]|].
Qed.

(** ** The reporter *)

Lemma main_report W args tr b X tr' :
  fetch W args tr = (Ok b, tr') →
  get_hashsum (algorithm_version args) b = Ok X →
  main W args tr = report X (hashsum args) tr'.
Proof.
  intros Hf Hh. unfold main. rewrite (bind_ok _ _ _ _ _ Hf).
  unfold lift. cbv [mbind M_bind]. by rewrite Hh.
Qed.

(** C1. Whatever the computed digest [X]: with no expected digest the
    reporter returns exit code 0; with an expected digest that is the
    very string [X] it prints [True] and returns 0; with any other
    expected digest [Y] it prints [False] and returns 1. *)
Theorem report_exit_codes (X : string) (tr : list event) :
  (report X None tr).1 = Ok 0
  ∧ report X (Some X) tr = (Ok 0, tr ++ [EvPrint "True"])
  ∧ (∀ Y, Y ≠ X → report X (Some Y) tr = (Ok 1, tr ++ [EvPrint "False"])).
Proof.
  split_and!.
  - reflexivity.
  - unfold report. by rewrite bool_decide_true.
  - intros Y HY. unfold report. by rewrite bool_decide_false.
Qed.

(** The comparison is that of the strings as given: letter case counts. *)
Example report_case_sensitive :
  report "a9" (Some "A9") [] = (Ok 1, [EvPrint "False"]).
Proof. reflexivity. Qed.

(** ** URL targets and the trust-anchor file *)

Lemma fetch_url_lookup W args :
  truthy (cafile args) = false →
  request_error W (target args) = None →
  fetch_url W args
  = (p ← get_default_cafile W;
     ssl_context ← create_ssl_context W (Some p);
     read_request W (request_of args) ssl_context).
Proof.
  intros Hc Hreq. unfold fetch_url, build_request. rewrite Hreq, Hc.
  reflexivity.
Qed.

Lemma fetch_url_given W args c :
  cafile args = Some c → c ≠ EmptyString →
  request_error W (target args) = None →
  fetch_url W args
  = (ssl_context ← create_ssl_context W (Some c);
     read_request W (request_of args) ssl_context).
Proof.
  intros Hc Hne Hreq. unfold fetch_url, build_request, truthy.
  rewrite Hreq, Hc. rewrite bool_decide_false by done. reflexivity.
Qed.

Lemma bind_starts {A B} (m : M A) (f : A → M B) tr e evs :
  (m tr).2 = tr ++ e :: evs → (∀ a, only (λ _, True) (f a)) →
  ∃ evs', ((m ≫= f) tr).2 = tr ++ e :: evs'.
Proof.
  intros Hm Hf. unfold mbind, M_bind.
  destruct (m tr) as [[a|x] tr1]; simpl in Hm; subst tr1; [|by exists evs].
  destruct (Hf a (tr ++ e :: evs)) as (evs' & -> & _).
  exists (evs ++ evs'). by rewrite <- app_assoc.
Qed.

Lemma only_after_lookup W args p :
  only (λ _, True)
    (ssl_context ← create_ssl_context W (Some p);
     read_request W (request_of args) ssl_context).
Proof.
  unfold create_ssl_context, read_request, urlopen.
  apply only_bind.
  { apply only_bind; [by apply only_emit|]. intros _.
    destruct (_ ≫= _); auto with only. }
  intros ctx. apply only_bind; [|auto with only].
  apply only_bind; [by apply only_emit|]. intros _.
  destruct (http_response _ _ _); auto with only.
Qed.

Section UrlWithoutCafile.
Context (W : World) (args : Namespace) (tr : list event).
Hypothesis Hurl : startswith (target args) "http" = true.
Hypothesis Hcafile : truthy (cafile args) = false.
Hypothesis Hreq : request_error W (target args) = None.

(** The lookup of a default file is the first effect of the fetch, so
    it comes before the network call, if there is one. *)
Lemma lookup_runs_first :
  ∃ evs, (fetch W args tr).2
         = tr ++ EvExists "/etc/ssl/certs/cacert.pem" :: evs.
Proof using Hurl Hcafile Hreq.
  unfold fetch. rewrite Hurl, fetch_url_lookup by done.
  destruct (first_existing_starts W "/etc/ssl/certs/cacert.pem"
              ["/etc/ssl/cert.pem"%string] tr) as (evs & Hevs).
  eapply bind_starts; [exact Hevs|]. intros p. apply only_after_lookup.
Qed.

(** The first default path that exists is the one the TLS context is
    made from. *)
Lemma lookup_uses_first l1 p l2 :
  DEFAULT_CAFILE_PATHS = l1 ++ p :: l2 →
  Forall (missing W) l1 → is_Some (fs W !! p) →
  fetch W args tr
  = (ssl_context ← create_ssl_context W (Some p);
     read_request W (request_of args) ssl_context)
      (tr ++ (EvExists <$> l1 ++ [p])).
Proof using Hurl Hcafile Hreq.
  intros Hpaths Hl1 Hp. unfold fetch.
  rewrite Hurl, fetch_url_lookup by done.
  rewrite (bind_ok _ _ _ p (tr ++ (EvExists <$> l1 ++ [p]))); [done|].
  unfold get_default_cafile. rewrite Hpaths.
  by apply first_existing_found.
Qed.

(** With no default path on the host the program stops at the lookup:
    the trace holds the two [os.path.exists] calls and nothing else. *)
Lemma lookup_fails :
  Forall (missing W) DEFAULT_CAFILE_PATHS →
  main W args tr
  = (Raise cafile_not_found, tr ++ (EvExists <$> DEFAULT_CAFILE_PATHS)).
Proof using Hurl Hcafile Hreq.
  intros Hnone. unfold main. apply bind_raise.
  unfold fetch. rewrite Hurl, fetch_url_lookup by done.
  apply bind_raise. by apply first_existing_none.
Qed.
End UrlWithoutCafile.

(** C6. An HTTPS target (a URL that [Request] accepts) with no [--cafile]:
    the default certificate-bundle paths are tried in their fixed order
    and the TLS context is made from the first one that exists; when none
    exists the program fails with [FileNotFoundError("Cannot find any
    cafile")] after the [os.path.exists] calls alone, so before any
    network call. *)
Theorem https_default_trust_anchor (W : World) (args : Namespace)
    (tr : list event) :
  startswith (target args) "https://" = true →
  cafile args = None →
  request_error W (target args) = None →
  (∀ l1 p l2,
     DEFAULT_CAFILE_PATHS = l1 ++ p :: l2 →
     Forall (missing W) l1 → is_Some (fs W !! p) →
     get_default_cafile W tr = (Ok p, tr ++ (EvExists <$> l1 ++ [p]))
     ∧ fetch W args tr
       = (ssl_context ← create_ssl_context W (Some p);
          read_request W (request_of args) ssl_context)
           (tr ++ (EvExists <$> l1 ++ [p])))
  ∧ (Forall (missing W) DEFAULT_CAFILE_PATHS →
     main W args tr
     = (Raise cafile_not_found, tr ++ (EvExists <$> DEFAULT_CAFILE_PATHS))
     ∧ Forall (λ e, is_network_call e = false)
         (EvExists <$> DEFAULT_CAFILE_PATHS)).
Proof.
  intros Hhttps Hc Hreq.
  assert (startswith (target args) "http" = true) as Hurl.
  { by eapply startswith_trans; [|exact Hhttps]. }
  assert (truthy (cafile args) = false) as Hfalsy by (by rewrite Hc).
  split.
  - intros l1 p l2 Hpaths Hl1 Hp. split.
    + unfold get_default_cafile. rewrite Hpaths.
      by apply first_existing_found.
    + by eapply lookup_uses_first.
  - intros Hnone. split; [by apply lookup_fails|].
    by repeat constructor.
Qed.

(** C9. A [--cafile] that is the empty string counts as no [--cafile]:
    the run is the one of the same command line without the option, and
    for a URL target the default lookup runs first and fails with
    [FileNotFoundError] when no default path exists. *)
Theorem empty_cafile_is_no_cafile (W : World) (args : Namespace)
    (tr : list event) :
  cafile args = Some EmptyString →
  main W args tr = main W (set_cafile None args) tr
  ∧ (startswith (target args) "http" = true →
     request_error W (target args) = None →
     (∃ evs, (fetch W args tr).2
             = tr ++ EvExists "/etc/ssl/certs/cacert.pem" :: evs)
     ∧ (Forall (missing W) DEFAULT_CAFILE_PATHS →
        main W args tr
        = (Raise cafile_not_found,
           tr ++ (EvExists <$> DEFAULT_CAFILE_PATHS)))).
Proof.
  intros Hc.
  assert (truthy (cafile args) = false) as Hfalsy by (by rewrite Hc).
  split.
  - unfold main, fetch, fetch_url, set_cafile; simpl. by rewrite Hc.
  - intros Hurl Hreq. split.
    + by apply lookup_runs_first.
    + by apply lookup_fails.
Qed.

(** C10. A plain [http://] target (a URL that [Request] accepts) with no
    [--cafile]: the lookup of a default certificate bundle is still the
    first effect of the fetch, ahead of the request, and with no default
    path on the host the program fails with [FileNotFoundError] and exit
    status 1 without any network call. *)
Theorem plain_http_runs_cafile_lookup (W : World) (args : Namespace)
    (tr : list event) :
  startswith (target args) "http://" = true →
  cafile args = None →
  request_error W (target args) = None →
  (∃ evs, (fetch W args tr).2
          = tr ++ EvExists "/etc/ssl/certs/cacert.pem" :: evs)
  ∧ (Forall (missing W) DEFAULT_CAFILE_PATHS →
     main W args tr
     = (Raise cafile_not_found, tr ++ (EvExists <$> DEFAULT_CAFILE_PATHS))
     ∧ exit_status (main W args tr).1 = 1
     ∧ Forall (λ e, is_network_call e = false)
         (EvExists <$> DEFAULT_CAFILE_PATHS)).
Proof.
  intros Hhttp Hc Hreq.
  assert (startswith (target args) "http" = true) as Hurl.
  { by eapply startswith_trans; [|exact Hhttp]. }
  assert (truthy (cafile args) = false) as Hfalsy by (by rewrite Hc).
  split; [by apply lookup_runs_first|].
  intros Hnone. rewrite lookup_fails by done.
  split_and!; [done..|]. by repeat constructor.
Qed.

(** ** Digests *)

Lemma length_be_bytes n x : length (be_bytes n x) = n.
Proof.
  revert x. induction n as [|n IH]; intros x; simpl; [done|].
  rewrite length_app, IH. simpl. lia.
Qed.

Lemma hexlify_length bs : String.length (hexlify bs) = (2 * length bs)%nat.
Proof. induction bs as [|b bs IH]; simpl; [done|]. rewrite IH. lia. Qed.

Lemma hex_digit_lower n : lower_hex_digit (hex_digit n) = true.
Proof.
  unfold hex_digit. generalize (Z.to_nat n) as k. intros k.
  do 16 (destruct k as [|k]; [reflexivity|]).
  simpl. by destruct k.
Qed.

Lemma hexlify_lower bs : lower_hex (hexlify bs) = true.
Proof.
  induction bs as [|b bs IH]; [done|].
  unfold lower_hex in *. simpl. by rewrite !hex_digit_lower, IH.
Qed.

Lemma sha1_digest_length b : length (Hashlib.sha1_digest b) = 20%nat.
Proof.
  unfold Hashlib.sha1_digest.
  destruct (fold_left _ _ _) as [[[[h0 h1] h2] h3] h4].
  by rewrite !length_app, !length_be_bytes.
Qed.

Lemma state_bytes_length wb n H :
  (n ≤ 8)%nat → length (Hashlib.state_bytes wb n H) = (n * wb)%nat.
Proof.
  intros Hn. unfold Hashlib.state_bytes.
  destruct H as [[[[[[[h0 h1] h2] h3] h4] h5] h6] h7].
  assert (∀ l : list Z, length (mjoin (be_bytes wb <$> l))
                         = (length l * wb)%nat) as Hsum.
  { induction l as [|x l IH]; simpl; [done|].
    rewrite length_app, length_be_bytes. f_equal. exact IH. }
  rewrite Hsum, length_take. by rewrite Nat.min_l.
Qed.

Lemma digest_length f b : (2 * length (digest f b))%nat = hex_length f.
Proof.
  destruct f; simpl;
    [by rewrite sha1_digest_length
    |unfold Hashlib.sha224_digest|unfold Hashlib.sha256_digest
    |unfold Hashlib.sha384_digest|unfold Hashlib.sha512_digest];
    rewrite state_bytes_length; lia.
Qed.

Lemma hexdigest_shape f b :
  String.length (hexdigest f b) = hex_length f
  ∧ lower_hex (hexdigest f b) = true.
Proof.
  unfold hexdigest. split; [|apply hexlify_lower].
  by rewrite hexlify_length, digest_length.
Qed.

Lemma sha_name_inj v1 v2 :
  "sha" +:+ py_str v1 = "sha" +:+ py_str v2 → v1 = v2.
Proof. intros H. by apply (inj pretty), (inj (String.app "sha")). Qed.

Lemma get_alogirthm_function_supported v :
  v ∈ supported_versions → ∃ f, get_alogirthm_function v = Ok f.
Proof.
  unfold supported_versions. rewrite !elem_of_cons, elem_of_nil.
  intros [->|[->|[->|[->|[->|[]]]]]]; eexists; vm_compute; reflexivity.
Qed.

Lemma get_alogirthm_function_unsupported v :
  v ∉ supported_versions →
  get_alogirthm_function v
  = Raise (AttributeError ("module 'hashlib' has no attribute 'sha"
                           +:+ py_str v +:+ "'")).
Proof.
  unfold supported_versions. rewrite !not_elem_of_cons.
  intros (H1 & H224 & H256 & H384 & H512 & _).
  unfold get_alogirthm_function, getattr_hashlib, hashlib.
  rewrite !lookup_insert_ne, lookup_empty; [done|..];
    intros Heq;
    [ apply (sha_name_inj 512 v) in Heq | apply (sha_name_inj 384 v) in Heq
    | apply (sha_name_inj 256 v) in Heq | apply (sha_name_inj 224 v) in Heq
    | apply (sha_name_inj 1 v) in Heq ]; congruence.
Qed.

(** C7. The identifiers that select a hash function are exactly 1, 224,
    256, 384 and 512.  For any other identifier (42, say) the lookup of
    the name sha<identifier> in [hashlib] raises [AttributeError], and
    [get_hashsum] raises it in place of returning a digest string. *)
Theorem unsupported_algorithm_raises (v : Z) (b : bytes) :
  ((∃ s, get_hashsum v b = Ok s) ↔ v ∈ supported_versions)
  ∧ (v ∉ supported_versions →
     get_hashsum v b
     = Raise (AttributeError ("module 'hashlib' has no attribute 'sha"
                              +:+ py_str v +:+ "'")))
  ∧ get_hashsum 42 b
    = Raise (AttributeError "module 'hashlib' has no attribute 'sha42'").
Proof.
  assert (v ∉ supported_versions →
          get_hashsum v b
          = Raise (AttributeError ("module 'hashlib' has no attribute 'sha"
                                   +:+ py_str v +:+ "'"))) as Hbad.
  { intros Hv. unfold get_hashsum.
    by rewrite get_alogirthm_function_unsupported. }
  split_and!; [|done|reflexivity].
  split.
  - intros [s Hs]. destruct (decide (v ∈ supported_versions)); [done|].
    rewrite Hbad in Hs by done. discriminate.
  - intros Hv. destruct (get_alogirthm_function_supported v Hv) as [f Hf].
    exists (hexdigest f b). unfold get_hashsum. by rewrite Hf.
Qed.

(** C8. For every byte sequence the digest is a lowercase hexadecimal
    string of the length of its family: 40 characters for identifier 1,
    64 for 256, 128 for 512. *)
Theorem digest_is_lower_hex_of_family_length (B : bytes) :
  (∃ s, get_hashsum 1 B = Ok s ∧ String.length s = 40%nat
        ∧ lower_hex s = true)
  ∧ (∃ s, get_hashsum 256 B = Ok s ∧ String.length s = 64%nat
          ∧ lower_hex s = true)
  ∧ (∃ s, get_hashsum 512 B = Ok s ∧ String.length s = 128%nat
          ∧ lower_hex s = true).
Proof.
  split_and!.
  - exists (hexdigest sha1 B). split; [reflexivity|apply hexdigest_shape].
  - exists (hexdigest sha256 B). split; [reflexivity|apply hexdigest_shape].
  - exists (hexdigest sha512 B). split; [reflexivity|apply hexdigest_shape].
Qed.

(** *** Known answers (FIPS 180-4 examples and [hashlib] itself) *)

Example K256_ends : head Hashlib.K256 = Some 0x428a2f98 ∧ last Hashlib.K256 = Some 0xc67178f2.
Proof. split; reflexivity. Qed.

Example K512_ends :
  head Hashlib.K512 = Some 0x428a2f98d728ae22 ∧ last Hashlib.K512 = Some 0x6c44198c4a475817.
Proof. split; reflexivity. Qed.

Example sha224_abc :
  get_hashsum 224 (b_ "abc")
  = Ok "23097d223405d8228642a477bda255b32aadbce4bda0b3f7e36c9da7"%string.
Proof. vm_compute. reflexivity. Qed.

Example sha256_abc :
  get_hashsum 256 (b_ "abc")
  = Ok "ba7816bf8f01cfea414140de5dae2223b00361a396177a9cb410ff61f20015ad"%string.
Proof. vm_compute. reflexivity. Qed.

Example sha384_abc :
  get_hashsum 384 (b_ "abc")
  = Ok ("cb00753f45a35e8bb5a03d699ac65007272c32ab0eded1631a8b605a43ff5bed"
        +:+ "8086072ba1e7cc2358baeca134c825a7")%string.
Proof. vm_compute. reflexivity. Qed.

Example sha512_abc :
  get_hashsum 512 (b_ "abc")
  = Ok ("ddaf35a193617abacc417349ae20413112e6fa4e89a97ea20a9eeee64b55d39a"
        +:+ "2192992a274fc1a836ba3c23a3feebbd454d4423643ce80e2a9ac94fa54ca49f")%string.
Proof. vm_compute. reflexivity. Qed.

Example sha1_empty :
  get_hashsum 1 [] = Ok "da39a3ee5e6b4b0d3255bfef95601890afd80709"%string.
Proof. vm_compute. reflexivity. Qed.

(** Two hundred letters [a]: several blocks for every family. *)
Example sha1_two_hundred_a :
  get_hashsum 1 (replicate 200 Byte.x61)
  = Ok "e61cfffe0d9195a525fc6cf06ca2d77119c24a40"%string.
Proof. vm_compute. reflexivity. Qed.

Example sha256_two_hundred_a :
  get_hashsum 256 (replicate 200 Byte.x61)
  = Ok "c2a908d98f5df987ade41b5fce213067efbcc21ef2240212a41e54b5e7c28ae5"%string.
Proof. vm_compute. reflexivity. Qed.

Example sha512_two_hundred_a :
  get_hashsum 512 (replicate 200 Byte.x61)
  = Ok ("4b11459c33f52a22ee8236782714c150a3b2c60994e9acee17fe68947a3e6789"
        +:+ "f31e7668394592da7bef827cddca88c4e6f86e4df7ed1ae6cba71f3e98faee9f")%string.
Proof. vm_compute. reflexivity. Qed.

(** C2, as the code has it. The SHA-1 digest of [b"abc"] is the
    forty-character string [a9993e364706816aba3e25717850c26c9cd0d89d]. *)
Theorem sha1_abc_digest :
  get_hashsum 1 (b_ "abc") = Ok "a9993e364706816aba3e25717850c26c9cd0d89d"%string.
Proof. vm_compute. reflexivity. Qed.

(** C2, as the specification words it: the thirty-nine characters
    [a9993e364706816aba3e25717850c26c9cd0d89] are not what [get_hashsum]
    returns for [b"abc"]; the last digit is missing. *)
Lemma sha1_abc_is_not_39_characters :
  get_hashsum 1 (b_ "abc") ≠ Ok "a9993e364706816aba3e25717850c26c9cd0d89"%string.
Proof. vm_compute. discriminate. Qed.

(** *** The name looked up in [hashlib] *)

Lemma pretty_N_char_digit n : digit_or_dash (pretty_N_char n) = true.
Proof. unfold pretty_N_char. by repeat case_match. Qed.

Lemma pretty_N_go_chars x s :
  string_forall digit_or_dash s = true →
  string_forall digit_or_dash (pretty_N_go x s) = true.
Proof.
  revert s. induction (N.lt_wf_0 x) as [x _ IH]; intros s Hs.
  destruct (decide (x = 0)%N) as [->|Hx]; [by rewrite pretty_N_go_0|].
  rewrite pretty_N_go_step by lia.
  apply IH; [apply N.div_lt; lia|].
  simpl. by rewrite pretty_N_char_digit.
Qed.

Lemma py_str_chars v : string_forall digit_or_dash (py_str v) = true.
Proof.
  unfold py_str, pretty, pretty_Z.
  destruct v as [|p|p]; [done|..];
    unfold pretty, pretty_positive, pretty, pretty_N;
    (case_decide; [done|]); exact (pretty_N_go_chars (N.pos p) "" eq_refl).
Qed.

(** No identifier spells one of the other attributes of the module. *)
Lemma fstring_not_other_attr v : "sha" +:+ py_str v ∉ hashlib_other_attrs.
Proof.
  pose proof (py_str_chars v) as Hchars.
  unfold hashlib_other_attrs. rewrite !not_elem_of_cons.
  split_and!; try apply not_elem_of_nil;
    intros Heq; cbv [String.append] in Heq; try discriminate Heq;
    injection Heq as Heq; rewrite Heq in Hchars; discriminate Hchars.
Qed.

(** *** The line printed when no expected digest is given *)

Lemma lower_hex_digit_repr c :
  lower_hex_digit c = true →
  repr_char squote c = String c "" ∧ bool_decide (c = squote) = false.
Proof.
  intros H. destruct c as [[] [] [] [] [] [] [] []];
    vm_compute in H; try discriminate H; split; vm_compute; reflexivity.
Qed.

Lemma py_repr_lower_hex s :
  lower_hex s = true → py_repr s = String squote (s +:+ String squote "").
Proof.
  intros Hs.
  assert (contains squote s = false ∧ repr_body squote s = s) as [Hc Hb].
  { induction s as [|c s IH]; [done|].
    unfold lower_hex in Hs; simpl in Hs. apply andb_prop in Hs as [Hd Hs].
    destruct (lower_hex_digit_repr c Hd) as [Hr Hq].
    destruct (IH Hs) as [IHc IHb]. simpl.
    rewrite Hq. rewrite IHc. rewrite Hr. rewrite IHb. split; reflexivity. }
  unfold py_repr. rewrite Hc. cbn [andb]. by rewrite Hb.
Qed.

(** For every digest the program computes, the line is
    [Target hassum is '<hex>']. *)
Lemma report_message v b X tr :
  get_hashsum v b = Ok X →
  report X None tr
  = (Ok 0, tr ++ [EvPrint ("Target hassum is '" +:+ X +:+ "'")]).
Proof.
  unfold get_hashsum. destruct (get_alogirthm_function v) as [f|]; [|done].
  intros [= <-]. unfold report.
  rewrite py_repr_lower_hex by apply hexdigest_shape. reflexivity.
Qed.

(** * Concrete runs *)

(** C3. The run [-T abc.txt] on a file holding [b"abc"], with no expected
    digest: the exit code is 0, and the line written to standard output
    reads [Target hassum is '...'], which is not the message
    [Target hashsum is '...'] of the specification. *)
Theorem no_expected_digest_prints_hassum :
  main bare_host (parse_defaults "abc.txt") []
  = (Ok 0, [EvOpen "abc.txt";
            EvPrint ("Target hassum is '" +:+ abc_sha1 +:+ "'")])
  ∧ stdout (main bare_host (parse_defaults "abc.txt") []).2
    = "Target hassum is '" +:+ abc_sha1 +:+ "'" +:+ String (ascii_of_nat 10) ""
  ∧ stdout (main bare_host (parse_defaults "abc.txt") []).2
    ≠ "Target hashsum is '" +:+ abc_sha1 +:+ "'" +:+ String (ascii_of_nat 10) "".
Proof. split_and!; vm_compute; [reflexivity..|discriminate]. Qed.

(** The whole program on the scenario of the specification: the digest of
    [abc.txt] given as [--hashsum] prints [True] and ends with status 0,
    any other prints [False] and ends with status 1. *)
Example main_abc_matches :
  main bare_host (with_hashsum abc_sha1 (parse_defaults "abc.txt")) []
  = (Ok 0, [EvOpen "abc.txt"; EvPrint "True"]).
Proof. vm_compute. reflexivity. Qed.

Example main_abc_differs :
  main bare_host (with_hashsum "0000" (parse_defaults "abc.txt")) []
  = (Ok 1, [EvOpen "abc.txt"; EvPrint "False"]).
Proof. vm_compute. reflexivity. Qed.

Example main_url_with_bundle :
  main host_with_bundle (parse_defaults "https://example.org/abc") []
  = (Ok 0,
     [EvExists "/etc/ssl/certs/cacert.pem"; EvExists "/etc/ssl/cert.pem";
      EvLoadCerts (Some "/etc/ssl/cert.pem"%string);
      EvUrlopen (request_of (parse_defaults "https://example.org/abc"))
        {| ctx_cafile := Some "/etc/ssl/cert.pem"%string |};
      EvPrint ("Target hassum is '" +:+ abc_sha1 +:+ "'")]).
Proof. vm_compute. reflexivity. Qed.

(** A local file whose name begins with [http] is taken for a URL. *)
Example main_http_named_file :
  startswith "httpd.conf" "http" = true
  ∧ ∀ W, fetch W (parse_defaults "httpd.conf") []
         = fetch_url W (parse_defaults "httpd.conf") [].
Proof. split; reflexivity. Qed.

(** ** The theorems at concrete inputs *)

Lemma report_exit_codes_witness :
  (report abc_sha1 None []).1 = Ok 0
  ∧ report abc_sha1 (Some abc_sha1) [] = (Ok 0, [EvPrint "True"])
  ∧ report abc_sha1 (Some "A9993E364706816ABA3E25717850C26C9CD0D89D") []
    = (Ok 1, [EvPrint "False"]).
Proof.
  destruct (report_exit_codes abc_sha1 []) as (H0 & H1 & H2).
  split_and!; [exact H0|exact H1|].
  apply H2. discriminate.
Defined.

Lemma read_file_roundtrip_witness :
  read_file host_with_bundle "empty.bin" [] = (Ok [], [EvOpen "empty.bin"])
  ∧ fetch host_with_bundle (parse_defaults "abc.txt") []
    = (Ok (b_ "abc"), [EvOpen "abc.txt"]).
Proof.
  split.
  - apply (read_file_roundtrip host_with_bundle "empty.bin" [] []).
    reflexivity.
  - apply (read_file_roundtrip host_with_bundle "abc.txt" (b_ "abc") []);
      reflexivity.
Defined.

Lemma fetch_classifies_by_prefix_witness :
  fetch bare_host (parse_defaults "http://example.org/abc") []
  = fetch_url bare_host (parse_defaults "http://example.org/abc") []
  ∧ (fetch bare_host (parse_defaults "abc.txt") []).2 = [EvOpen "abc.txt"].
Proof.
  split.
  - apply (fetch_classifies_by_prefix bare_host
             (parse_defaults "http://example.org/abc") []).
    reflexivity.
  - apply (fetch_classifies_by_prefix bare_host (parse_defaults "abc.txt") []).
    reflexivity.
Defined.

Lemma https_default_trust_anchor_witness :
  get_default_cafile host_with_bundle []
  = (Ok "/etc/ssl/cert.pem"%string,
     [EvExists "/etc/ssl/certs/cacert.pem"; EvExists "/etc/ssl/cert.pem"])
  ∧ main bare_host (parse_defaults "https://example.org/abc") []
    = (Raise cafile_not_found,
       [EvExists "/etc/ssl/certs/cacert.pem"; EvExists "/etc/ssl/cert.pem"]).
Proof.
  split.
  - apply (https_default_trust_anchor host_with_bundle
             (parse_defaults "https://example.org/abc") []
             eq_refl eq_refl eq_refl)
      with (l1 := ["/etc/ssl/certs/cacert.pem"%string]) (l2 := []);
      [reflexivity| |by eexists].
    by repeat constructor.
  - apply (https_default_trust_anchor bare_host
             (parse_defaults "https://example.org/abc") []
             eq_refl eq_refl eq_refl).
    by repeat constructor.
Defined.

Lemma unsupported_algorithm_raises_witness :
  get_hashsum 42 (b_ "abc")
  = Raise (AttributeError "module 'hashlib' has no attribute 'sha42'")
  ∧ ∃ s, get_hashsum 384 (b_ "abc") = Ok s.
Proof.
  destruct (unsupported_algorithm_raises 384 (b_ "abc")) as (Hiff & _ & _).
  destruct (unsupported_algorithm_raises 42 (b_ "abc")) as (_ & Hbad & _).
  split.
  - rewrite Hbad; [reflexivity|].
    unfold supported_versions. rewrite !not_elem_of_cons.
    split_and!; [discriminate..|apply not_elem_of_nil].
  - apply Hiff. unfold supported_versions. rewrite !elem_of_cons. tauto.
Defined.

Lemma empty_cafile_is_no_cafile_witness :
  main bare_host
    (set_cafile (Some EmptyString) (parse_defaults "http://example.org/abc")) []
  = (Raise cafile_not_found,
     [EvExists "/etc/ssl/certs/cacert.pem"; EvExists "/etc/ssl/cert.pem"]).
Proof.
  apply (empty_cafile_is_no_cafile bare_host
           (set_cafile (Some EmptyString)
              (parse_defaults "http://example.org/abc")) []
           eq_refl); [reflexivity..|].
  by repeat constructor.
Defined.

Lemma plain_http_runs_cafile_lookup_witness :
  main bare_host (parse_defaults "http://example.org/abc") []
  = (Raise cafile_not_found,
     [EvExists "/etc/ssl/certs/cacert.pem"; EvExists "/etc/ssl/cert.pem"])
  ∧ exit_status (main bare_host (parse_defaults "http://example.org/abc") []).1
    = 1.
Proof.
  destruct (plain_http_runs_cafile_lookup bare_host
              (parse_defaults "http://example.org/abc") []
              eq_refl eq_refl eq_refl) as [_ Hnone].
  destruct Hnone as (Hmain & Hexit & _); [by repeat constructor|].
  split; [exact Hmain|exact Hexit].
Defined.

(** * Further properties of the program *)

(** ** Events and returned values together *)








(** ** The read loop *)


(** With a chunk size of zero the first [read] returns [b""], the loop
    stops, and [read_bytes] returns [b""] even for a file with content. *)
Theorem read_bytes_zero_chunk (fp : Readable) : read_bytes fp 0 = [].
Proof. unfold read_bytes. apply read_loop_zero. Qed.

(** [read_request] returns exactly the body of the response, read 4 KiB
    at a time, and passes on the exception of a failed exchange; its one
    effect is the [urlopen] call. *)
Theorem read_request_roundtrip (W : World) (req : Request)
    (ctx : SSLContext) (tr : list event) :
  (∀ B, http_response W req ctx = Ok B →
        read_request W req ctx tr = (Ok B, tr ++ [EvUrlopen req ctx]))
  ∧ (∀ e, http_response W req ctx = Raise e →
          read_request W req ctx tr = (Raise e, tr ++ [EvUrlopen req ctx])).
Proof.
  split; intros x Hx; unfold read_request, urlopen;
    cbv [mbind M_bind emit mret M_ret raise]; rewrite Hx; [|done].
  by rewrite read_bytes_all.
Qed.

(** ** The default trust-anchor file *)

Lemma first_existing_inv W l tr :
  ∃ probed rest,
    l = probed ++ rest
    ∧ (first_existing W l tr).2 = tr ++ (EvExists <$> probed)
    ∧ match (first_existing W l tr).1 with
      | Ok p => ∃ l1, probed = l1 ++ [p] ∧ Forall (missing W) l1
                      ∧ is_Some (fs W !! p)
      | Raise e => e = cafile_not_found ∧ rest = []
                   ∧ Forall (missing W) probed
      end.
Proof.
  revert tr. induction l as [|q l IH]; intros tr.
  - exists [], []. simpl. by rewrite app_nil_r.
  - simpl. cbv [mbind M_bind path_exists emit mret M_ret].
    destruct (bool_decide (is_Some (fs W !! q))) eqn:Hq.
    + exists [q], l. split_and!; [done..|].
      exists []. split_and!; [done|constructor|].
      by apply bool_decide_eq_true in Hq.
    + assert (missing W q) as Hmiss.
      { apply bool_decide_eq_false in Hq. unfold missing.
        destruct (fs W !! q) eqn:E; [|done]. destruct Hq. by eexists. }
      destruct (IH (tr ++ [EvExists q])) as (probed & rest & -> & Htr & Hres).
      exists (q :: probed), rest. split_and!; [done| |].
      * rewrite Htr. by rewrite <- app_assoc.
      * destruct (first_existing W (probed ++ rest) (tr ++ [EvExists q])).1
          as [p|e].
        -- destruct Hres as (l1 & -> & Hl1 & Hp).
           exists (q :: l1). split_and!; [done|by constructor|done].
        -- destruct Hres as (-> & -> & Hprobed).
           split_and!; [done..|by constructor].
Qed.

(** [get_default_cafile] probes the default paths in their order and
    stops at the first that exists: a path it returns was probed last,
    exists, and follows only missing ones; it raises only after probing
    every default path and finding none. *)
Theorem get_default_cafile_sound (W : World) (tr : list event) :
  ∃ probed rest,
    DEFAULT_CAFILE_PATHS = probed ++ rest
    ∧ (get_default_cafile W tr).2 = tr ++ (EvExists <$> probed)
    ∧ match (get_default_cafile W tr).1 with
      | Ok p => ∃ l1, probed = l1 ++ [p] ∧ Forall (missing W) l1
                      ∧ is_Some (fs W !! p)
      | Raise e => e = cafile_not_found ∧ rest = []
                   ∧ Forall (missing W) probed
      end.
Proof. apply first_existing_inv. Qed.

(** ** The network call *)



(** A non-empty [--cafile] is used as given: for a URL target the first
    effect is the loading of that file, and the default paths are never
    probed. *)
Theorem supplied_cafile_skips_lookup (W : World) (args : Namespace)
    (c : string) (tr : list event) :
  startswith (target args) "http" = true →
  cafile args = Some c → c ≠ EmptyString →
  request_error W (target args) = None →
  ∃ evs, (fetch W args tr).2 = tr ++ EvLoadCerts (Some c) :: evs
         ∧ Forall (λ e, ¬ is_exists e) evs.
Proof.
  intros Hurl Hc Hne Hreq. unfold fetch.
  rewrite Hurl, (fetch_url_given W args c) by done.
  unfold create_ssl_context, read_request, urlopen.
  cbv [mbind M_bind emit mret M_ret raise option_bind].
  destruct (load_verify_error W c); simpl.
  - by exists [].
  - destruct (http_response _ _ _); simpl;
      (eexists [_]; rewrite <- app_assoc; split; [done|]);
      by constructor; [intros []|constructor].
Qed.

(** A certificate bundle that OpenSSL cannot load stops the program
    before the request: the exception of [create_ssl_context] comes out of
    [main] and the trace holds the loading alone. *)
Theorem failed_bundle_blocks_request (W : World) (args : Namespace)
    (c : string) (e : exn) (tr : list event) :
  startswith (target args) "http" = true →
  cafile args = Some c → c ≠ EmptyString →
  request_error W (target args) = None →
  load_verify_error W c = Some e →
  main W args tr = (Raise e, tr ++ [EvLoadCerts (Some c)]).
Proof.
  intros Hurl Hc Hne Hreq Hload. unfold main. apply bind_raise.
  unfold fetch. rewrite Hurl, (fetch_url_given W args c) by done.
  apply bind_raise. unfold create_ssl_context.
  cbv [mbind M_bind emit mret M_ret raise option_bind]. by rewrite Hload.
Qed.

(** A target that begins with [http] and that [Request] refuses ends the
    program with the exception of the constructor and no effect at all:
    no certificate lookup, no network call, nothing printed. *)
Theorem rejected_url_has_no_effect (W : World) (args : Namespace)
    (e : exn) (tr : list event) :
  startswith (target args) "http" = true →
  request_error W (target args) = Some e →
  main W args tr = (Raise e, tr).
Proof.
  intros Hurl Hreq. unfold main. apply bind_raise.
  unfold fetch. rewrite Hurl. unfold fetch_url. apply bind_raise.
  unfold build_request. by rewrite Hreq.
Qed.

(** For a target that does not begin with [http] the options [-U] and
    [-C] have no influence on the run. *)
Theorem local_target_ignores_url_options (W : World) (args : Namespace)
    (ua : string) (c : option string) (tr : list event) :
  startswith (target args) "http" = false →
  main W (set_url_options ua c args) tr = main W args tr.
Proof. intros Hloc. unfold main, fetch. simpl. by rewrite Hloc. Qed.

(** ** The whole run *)

Lemma fetch_no_print W args tr :
  ∃ evs, (fetch W args tr).2 = tr ++ evs ∧ Forall (λ e, ¬ is_print e) evs.
Proof.
  unfold fetch. destruct (startswith _ _).
  - destruct (only_fetch_url W args tr) as (evs & ? & Hevs).
    exists evs. split; [done|].
    eapply Forall_impl; [exact Hevs|]. intros []; simpl; tauto.
  - destruct (only_read_file W (target args) tr) as (evs & ? & Hevs).
    exists evs. split; [done|].
    eapply Forall_impl; [exact Hevs|]. intros []; simpl; tauto.
Qed.

(** A run that returns has printed exactly one line, as its last effect,
    and its exit code is 0 or 1; a run that ends in an exception has
    printed nothing. *)
Theorem main_prints_one_line_or_raises (W : World) (args : Namespace)
    (tr : list event) :
  ∃ evs, Forall (λ e, ¬ is_print e) evs
         ∧ match main W args tr with
           | (Ok code, tr') =>
               (code = 0 ∨ code = 1)
               ∧ ∃ line, tr' = tr ++ evs ++ [EvPrint line]
           | (Raise _, tr') => tr' = tr ++ evs
           end.
Proof.
  destruct (fetch_no_print W args tr) as (evs & Htr & Hevs).
  exists evs. split; [done|]. unfold main, lift.
  cbv [mbind M_bind]. destruct (fetch W args tr) as [[b|e] tr1];
    simpl in Htr; subst tr1; [|done].
  destruct (get_hashsum _ b) as [X|e]; [|done].
  unfold report. destruct (hashsum args) as [h|].
  - destruct (bool_decide _); cbv [mbind M_bind emit mret M_ret];
      rewrite <- app_assoc; split; eauto.
  - cbv [mbind M_bind emit mret M_ret]. rewrite <- app_assoc. split; eauto.
Qed.

(** A run returns only after a fetch and a digest that both succeeded,
    and its exit code is 1 exactly when an expected digest was given that
    differs from the computed one. *)
Theorem main_return_inversion (W : World) (args : Namespace)
    (tr : list event) (code : Z) :
  (main W args tr).1 = Ok code →
  ∃ b tr1 X,
    fetch W args tr = (Ok b, tr1)
    ∧ get_hashsum (algorithm_version args) b = Ok X
    ∧ (code = 1 ↔ ∃ h, hashsum args = Some h ∧ h ≠ X)
    ∧ (code = 0 ↔ hashsum args = None ∨ hashsum args = Some X).
Proof.
  unfold main, lift. cbv [mbind M_bind].
  destruct (fetch W args tr) as [[b|e] tr1]; [|done].
  destruct (get_hashsum _ b) as [X|e] eqn:Hsum; simpl; [|done].
  intros Hcode. exists b, tr1, X. split_and!; [done..| |];
    unfold report in Hcode; destruct (hashsum args) as [h|].
  - destruct (bool_decide_reflect (X = h)) as [->|Hne];
      cbv [mbind M_bind emit mret M_ret] in Hcode; simplify_eq/=.
    + split; [done|]. by intros (h' & [= <-] & ?).
    + split; [|done]. intros _. exists h. by split; [|intros ->].
  - cbv [mbind M_bind emit mret M_ret] in Hcode. simplify_eq/=.
    split; [done|]. by intros (? & ? & ?).
  - destruct (bool_decide_reflect (X = h)) as [->|Hne];
      cbv [mbind M_bind emit mret M_ret] in Hcode; simplify_eq/=.
    + split; [|done]. intros _. by right.
    + split; [done|]. intros [|[= ->]]; done.
  - cbv [mbind M_bind emit mret M_ret] in Hcode. simplify_eq/=.
    split; [|done]. intros _. by left.
Qed.

(** The algorithm identifier is looked at only once the content is there:
    a failed fetch ends the run with its own exception whatever the
    identifier, and after a successful fetch an unsupported identifier
    raises [AttributeError] with the effects of the fetch already done. *)
Theorem algorithm_checked_after_fetch (W : World) (args : Namespace)
    (tr : list event) :
  (∀ e tr1, fetch W args tr = (Raise e, tr1) →
            main W args tr = (Raise e, tr1))
  ∧ (∀ b tr1, fetch W args tr = (Ok b, tr1) →
              algorithm_version args ∉ supported_versions →
              main W args tr
              = (Raise (AttributeError
                          ("module 'hashlib' has no attribute 'sha"
                           +:+ py_str (algorithm_version args) +:+ "'")),
                 tr1)).
Proof.
  split.
  - intros e tr1 Hf. unfold main. by apply bind_raise.
  - intros b tr1 Hf Hv. unfold main. rewrite (bind_ok _ _ _ _ _ Hf).
    unfold lift, get_hashsum. cbv [mbind M_bind].
    by rewrite get_alogirthm_function_unsupported.
Qed.

(** End to end for a local file: the run is the report of the digest of
    the file's content, after the one [open]. *)
Theorem main_local_end_to_end (W : World) (args : Namespace) (C : bytes)
    (X : string) (tr : list event) :
  startswith (target args) "http" = false →
  fs W !! target args = Some (File C) →
  get_hashsum (algorithm_version args) C = Ok X →
  main W args tr = report X (hashsum args) (tr ++ [EvOpen (target args)]).
Proof.
  intros Hloc Hfile Hsum. apply main_report with (b := C); [|done].
  unfold fetch. rewrite Hloc. unfold read_file, open_rb.
  cbv [mbind M_bind mret M_ret emit raise]. rewrite Hfile.
  by rewrite read_bytes_all.
Qed.

(** End to end for a URL with a [--cafile]: the run is the report of the
    digest of the response body, after the loading of the bundle and the
    one request. *)
Theorem main_url_end_to_end (W : World) (args : Namespace) (c : string)
    (B : bytes) (X : string) (tr : list event) :
  startswith (target args) "http" = true →
  cafile args = Some c → c ≠ EmptyString →
  request_error W (target args) = None →
  load_verify_error W c = None →
  http_response W (request_of args) {| ctx_cafile := Some c |} = Ok B →
  get_hashsum (algorithm_version args) B = Ok X →
  main W args tr
  = report X (hashsum args)
      (tr ++ [EvLoadCerts (Some c);
              EvUrlopen (request_of args) {| ctx_cafile := Some c |}]).
Proof.
  intros Hurl Hc Hne Hreq Hload Hresp Hsum.
  apply main_report with (b := B); [|done].
  unfold fetch. rewrite Hurl, (fetch_url_given W args c) by done.
  unfold create_ssl_context, read_request, urlopen.
  cbv [mbind M_bind emit mret M_ret raise option_bind].
  rewrite Hload. simpl. rewrite Hresp. simpl.
  by rewrite read_bytes_all, <- app_assoc.
Qed.

(** ** Digests and the comparison *)

Lemma hex_length_of_identifier v f :
  get_alogirthm_function v = Ok f →
  Z.of_nat (hex_length f) = (if bool_decide (v = 1) then 40 else v / 4).
Proof.
  intros Hf. destruct (decide (v ∈ supported_versions)) as [Hv|Hv].
  - unfold supported_versions in Hv.
    rewrite !elem_of_cons, elem_of_nil in Hv.
    destruct Hv as [->|[->|[->|[->|[->|[]]]]]];
      vm_compute in Hf; injection Hf as <-; reflexivity.
  - by rewrite get_alogirthm_function_unsupported in Hf.
Qed.

(** Whatever the supported identifier, the digest is a lowercase
    hexadecimal string of 40 characters for identifier 1 and of a quarter
    of the identifier otherwise (56, 64, 96, 128). *)
Theorem digest_shape_of_identifier (v : Z) (b : bytes) (s : string) :
  get_hashsum v b = Ok s →
  Z.of_nat (String.length s) = (if bool_decide (v = 1) then 40 else v / 4)
  ∧ lower_hex s = true.
Proof.
  unfold get_hashsum.
  destruct (get_alogirthm_function v) as [f|] eqn:Hf; [|done].
  intros [= <-]. destruct (hexdigest_shape f b) as [-> Hlow].
  split; [|done]. by apply hex_length_of_identifier.
Qed.

(** An expected digest that is not a lowercase hexadecimal string (one
    typed in capitals, or with a space after it) never matches: the
    reporter prints [False] and returns 1. *)
Theorem non_lowercase_expected_never_matches (v : Z) (b : bytes)
    (X h : string) (tr : list event) :
  get_hashsum v b = Ok X →
  lower_hex h = false →
  report X (Some h) tr = (Ok 1, tr ++ [EvPrint "False"]).
Proof.
  intros HX Hh. unfold get_hashsum in HX.
  destruct (get_alogirthm_function v) as [f|]; [|done].
  injection HX as <-. unfold report.
  rewrite bool_decide_false; [done|].
  intros Heq. destruct (hexdigest_shape f b) as [_ Hlow].
  by rewrite Heq, Hh in Hlow.
Qed.

(** ** The further properties at concrete inputs *)


Lemma read_request_roundtrip_witness :
  read_request bare_host (request_of (parse_defaults "http://example.org/abc"))
    {| ctx_cafile := Some "my.pem"%string |} []
  = (Ok (b_ "abc"),
     [EvUrlopen (request_of (parse_defaults "http://example.org/abc"))
        {| ctx_cafile := Some "my.pem"%string |}]).
Proof.
  apply (read_request_roundtrip bare_host
           (request_of (parse_defaults "http://example.org/abc"))
           {| ctx_cafile := Some "my.pem"%string |} []).
  reflexivity.
Defined.

Lemma supplied_cafile_skips_lookup_witness :
  ∃ evs,
    (fetch host_with_bundle
       (set_cafile (Some "my.pem"%string)
          (parse_defaults "https://example.org/abc")) []).2
    = [] ++ EvLoadCerts (Some "my.pem"%string) :: evs
    ∧ Forall (λ e, ¬ is_exists e) evs.
Proof.
  apply (supplied_cafile_skips_lookup host_with_bundle
           (set_cafile (Some "my.pem"%string)
              (parse_defaults "https://example.org/abc")) "my.pem" []);
    [reflexivity|reflexivity|discriminate|reflexivity].
Defined.

Lemma failed_bundle_blocks_request_witness :
  main host_bad_bundle
    (set_cafile (Some "my.pem"%string)
       (parse_defaults "https://example.org/abc")) []
  = (Raise (SSLError "[X509] no certificate or crl found"),
     [EvLoadCerts (Some "my.pem"%string)]).
Proof.
  apply (failed_bundle_blocks_request host_bad_bundle
           (set_cafile (Some "my.pem"%string)
              (parse_defaults "https://example.org/abc")) "my.pem"
           (SSLError "[X509] no certificate or crl found") []);
    [reflexivity|reflexivity|discriminate|reflexivity|reflexivity].
Defined.

Lemma rejected_url_has_no_effect_witness :
  main strict_host (parse_defaults "httpd.conf") []
  = (Raise (ValueError "unknown url type: 'httpd.conf'"), []).
Proof.
  apply (rejected_url_has_no_effect strict_host (parse_defaults "httpd.conf")
           (ValueError "unknown url type: 'httpd.conf'") []);
    reflexivity.
Defined.

Lemma local_target_ignores_url_options_witness :
  main bare_host
    (set_url_options "curl/8.0" (Some "my.pem"%string)
       (parse_defaults "abc.txt")) []
  = main bare_host (parse_defaults "abc.txt") [].
Proof.
  apply (local_target_ignores_url_options bare_host (parse_defaults "abc.txt")
           "curl/8.0" (Some "my.pem"%string) []).
  reflexivity.
Defined.

Lemma main_return_inversion_witness :
  ∃ b tr1 X,
    fetch bare_host (with_hashsum "0000" (parse_defaults "abc.txt")) []
    = (Ok b, tr1)
    ∧ get_hashsum 1 b = Ok X
    ∧ (1 = 1 ↔ ∃ h, Some "0000"%string = Some h ∧ h ≠ X)
    ∧ (1 = 0 ↔ Some "0000"%string = None ∨ Some "0000"%string = Some X).
Proof.
  apply (main_return_inversion bare_host
           (with_hashsum "0000" (parse_defaults "abc.txt")) [] 1).
  vm_compute. reflexivity.
Defined.

Lemma algorithm_checked_after_fetch_witness :
  main bare_host
    {| target := "abc.txt"; algorithm_version := 42;
       user_agent := DEFAULT_USER_AGENT; cafile := None; hashsum := None |} []
  = (Raise (AttributeError "module 'hashlib' has no attribute 'sha42'"),
     [EvOpen "abc.txt"]).
Proof.
  apply (algorithm_checked_after_fetch bare_host
           {| target := "abc.txt"; algorithm_version := 42;
              user_agent := DEFAULT_USER_AGENT; cafile := None;
              hashsum := None |} [])
    with (b := b_ "abc").
  - vm_compute. reflexivity.
  - unfold supported_versions. simpl. rewrite !not_elem_of_cons.
    split_and!; [discriminate..|apply not_elem_of_nil].
Defined.

Lemma main_local_end_to_end_witness :
  main bare_host (with_hashsum abc_sha1 (parse_defaults "abc.txt")) []
  = report abc_sha1 (Some abc_sha1) [EvOpen "abc.txt"].
Proof.
  apply (main_local_end_to_end bare_host
           (with_hashsum abc_sha1 (parse_defaults "abc.txt")) (b_ "abc")
           abc_sha1 []);
    [reflexivity|reflexivity|vm_compute; reflexivity].
Defined.

Lemma main_url_end_to_end_witness :
  main host_with_bundle
    (set_cafile (Some "my.pem"%string)
       (parse_defaults "https://example.org/abc")) []
  = report abc_sha1 None
      [EvLoadCerts (Some "my.pem"%string);
       EvUrlopen
         (request_of (set_cafile (Some "my.pem"%string)
                        (parse_defaults "https://example.org/abc")))
         {| ctx_cafile := Some "my.pem"%string |}].
Proof.
  apply (main_url_end_to_end host_with_bundle
           (set_cafile (Some "my.pem"%string)
              (parse_defaults "https://example.org/abc")) "my.pem"
           (b_ "abc") abc_sha1 []);
    [reflexivity|reflexivity|discriminate|reflexivity|reflexivity
    |reflexivity|vm_compute; reflexivity].
Defined.

Lemma digest_shape_of_identifier_witness :
  Z.of_nat (String.length (hexdigest sha384 (b_ "abc"))) = 96
  ∧ lower_hex (hexdigest sha384 (b_ "abc")) = true.
Proof.
  apply (digest_shape_of_identifier 384 (b_ "abc")
           (hexdigest sha384 (b_ "abc"))).
  reflexivity.
Defined.

Lemma non_lowercase_expected_never_matches_witness :
  report abc_sha1 (Some "A9993E364706816ABA3E25717850C26C9CD0D89D") []
  = (Ok 1, [EvPrint "False"]).
Proof.
  apply (non_lowercase_expected_never_matches 1 (b_ "abc") abc_sha1
           "A9993E364706816ABA3E25717850C26C9CD0D89D" []);
    vm_compute; reflexivity.
Defined.

Lemma report_message_witness :
  report abc_sha1 None []
  = (Ok 0, [EvPrint ("Target hassum is '" +:+ abc_sha1 +:+ "'")]).
Proof.
  apply (report_message 1 (b_ "abc") abc_sha1 []).
  vm_compute. reflexivity.
Defined.
